(** * Table-key reconciliation and transform dispatch of
      notebooks/work-in-progress/transform_xbrl.ipynb

    The notebook holds two dictionaries of raw tables
    ([ferc1_dbf_raw_dfs], [ferc1_xbrl_raw_dfs]), renames entries of the
    second one in place and then calls two transformer objects of
    [pudl.transform.ferc1].  Dictionaries are finite maps with string
    keys; in-place mutation and exceptions are a state-and-exception
    monad whose state survives a raised exception, as the contents of a
    Python dictionary do. *)

From stdpp Require Import gmap strings list fin_maps.

Set Default Proof Using "Type".

(** ** Exceptions and outcomes *)

Inductive Exception :=
  | KeyError (key : string)
      (* [dict.pop(key)] on a key that is not in the dictionary *)
  | MissingDependencyError (dependency : string)
      (* named by the specification for the transform handlers *)
  | ExternalError (what : string).
      (* anything else a collaborator outside the notebook raises *)

Inductive Outcome (A : Type) :=
  | Return (a : A)
  | Raise (e : Exception).
Arguments Return {A} a.
Arguments Raise {A} e.

(** A computation over a mutable state [St]: the state after the run is
    always returned, also when the run ends in an exception. *)
Definition Exec (St A : Type) : Type := St → Outcome A * St.

Definition exec_ret {St A} (a : A) : Exec St A := λ s, (Return a, s).

Definition exec_bind {St A B} (m : Exec St A) (k : A → Exec St B) : Exec St B :=
  λ s, match m s with
       | (Return a, s') => k a s'
       | (Raise e, s') => (Raise e, s')
       end.

(** [raise e]. *)
Definition exec_raise {St A} (e : Exception) : Exec St A := λ s, (Raise e, s).

Notation "x ←' m ; k" := (exec_bind m (λ x, k))
  (at level 20, m at level 100, k at level 200, right associativity,
   format "'[' x  ←'  m ;  '/' k ']'").
Notation "m ;;' k" := (exec_bind m (λ _, k))
  (at level 100, k at level 200, right associativity).

(** ** Dictionaries of raw tables *)

Section Dict.
Context {DataFrame : Type}.

(** [d.pop(key)]: removes the entry and returns its value; [KeyError]
    when the key is missing, the dictionary being left as it was. *)
Definition pop (key : string) : Exec (gmap string DataFrame) DataFrame :=
  λ d, match d !! key with
       | Some df => (Return df, delete key d)
       | None => (Raise (KeyError key), d)
       end.

(** [d[key] = df]: inserts, or replaces the value of a key already
    there; never raises. *)
Definition setitem (key : string) (df : DataFrame) : Exec (gmap string DataFrame) () :=
  λ d, (Return (), <[key := df]> d).

(** [d.get(key)] and [d.get(key, None)]: [None] for a missing key. *)
Definition get (d : gmap string DataFrame) (key : string) : option DataFrame :=
  d !! key.

(** The body of the rename loop,
    [ferc1_xbrl_raw_dfs[pudl_name] = ferc1_xbrl_raw_dfs.pop(xbrl_name)]:
    the right-hand side is evaluated first, then the item is assigned. *)
Definition rename_step (pudl_name xbrl_name : string) : Exec (gmap string DataFrame) () :=
  df ←' pop xbrl_name; setitem pudl_name df.

(** [for pudl_name, xbrl_name in rename_dict.items(): ...] over the items
    of the rename dictionary in their declared order.  An item is
    [(pudl_name, xbrl_name)]: the dictionary key is the name the table
    gets (the new key), the dictionary value is the name it is popped
    from (the old key). *)
Fixpoint reconcile (items : list (string * string)) : Exec (gmap string DataFrame) () :=
  match items with
  | [] => exec_ret ()
  | (pudl_name, xbrl_name) :: rest =>
      rename_step pudl_name xbrl_name ;;' reconcile rest
  end.
End Dict.

(** The keys a rename dictionary pops and the keys it assigns. *)
Definition old_keys (items : list (string * string)) : list string := items.*2.
Definition new_keys (items : list (string * string)) : list string := items.*1.

(** A rename dictionary is non-overlapping when no key occurs more than
    once among its old keys and new keys. *)
Definition non_overlapping (items : list (string * string)) : Prop :=
  NoDup (old_keys items ++ new_keys items).

(** The specification's wording of one rename, as a pure function on the
    set: remove the entry at the old key and reinsert it, unchanged, at
    the new key. *)
Definition move_entry {DataFrame : Type} (old_key new_key : string)
    (d : gmap string DataFrame) : gmap string DataFrame :=
  match d !! old_key with
  | Some df => <[new_key := df]> (delete old_key d)
  | None => d
  end.

(** The specification's wording of the whole rename: one [move_entry] per
    pair, in declared order. *)
Definition moved_in_order {DataFrame : Type} (items : list (string * string))
    (d : gmap string DataFrame) : gmap string DataFrame :=
  foldl (λ acc item, move_entry item.2 item.1 acc) d items.

(** The notebook's [rename_dict], as the list of its items. *)
Definition rename_dict : list (string * string) :=
  [ ("plants_steam_ferc1_duration",
     "steam_electric_generating_plant_statistics_large_plants_402_duration");
    ("plants_steam_ferc1_instant",
     "steam_electric_generating_plant_statistics_large_plants_402_instant");
    ("fuel_ferc1_duration",
     "steam_electric_generating_plant_statistics_large_plants_fuel_statistics_402_duration") ].

(** A RenameMap of the specification is a sequence of (old-key, new-key)
    pairs.  The rename dictionary that declares it has one item per pair,
    in the same order: the new key as dictionary key, the old key as its
    value. *)
Definition rename_map_items (rename_map : list (string * string))
  : list (string * string) :=
  prod_swap <$> rename_map.

(** The rename dictionary that undoes [items]: every item turned round,
    the last one first. *)
Definition inverted (items : list (string * string)) : list (string * string) :=
  reverse (prod_swap <$> items).

(** The tables the settings cell asks the XBRL extraction for,
    [Ferc1XbrlSettings(tables=[...])]. *)
Definition xbrl_tables : list string :=
  [ "steam_electric_generating_plant_statistics_large_plants_fuel_statistics_402_duration";
    "steam_electric_generating_plant_statistics_large_plants_402_duration";
    "steam_electric_generating_plant_statistics_large_plants_402_instant" ].

(** ** The notebook session *)

(** The transformer classes the notebook instantiates.  They are defined
    in [pudl.transform.ferc1], outside the notebook. *)
Inductive Transformer := FuelFerc1 | PlantsSteamFerc1.

Section Session.
Context {DataFrame : Type}.

(** Keyword arguments of [execute].  [transformed_fuel] is [None] when
    the keyword is not passed; a raw input is [None] when [dict.get]
    found no table. *)
Record Kwargs := {
  raw_dbf : option DataFrame;
  raw_xbrl_instant : option DataFrame;
  raw_xbrl_duration : option DataFrame;
  transformed_fuel : option DataFrame }.

(** What the session observes of a transformer: the call and its end. *)
Inductive Event :=
  | Invoked (t : Transformer) (table_name : string) (kw : Kwargs)
  | Completed (t : Transformer) (result : Outcome DataFrame).

(** The variables of the notebook, and the log of transformer calls in
    the order they happened (oldest first). *)
Record Session := {
  ferc1_dbf_raw_dfs : gmap string DataFrame;
  ferc1_xbrl_raw_dfs : gmap string DataFrame;
  ferc1_transformed_dfs : gmap string DataFrame;
  fuel_df : option DataFrame;
  steam_df : option DataFrame;
  calls : list Event }.

Definition set_ferc1_xbrl_raw_dfs (d : gmap string DataFrame) (s : Session) : Session :=
  {| ferc1_dbf_raw_dfs := ferc1_dbf_raw_dfs s;
     ferc1_xbrl_raw_dfs := d;
     ferc1_transformed_dfs := ferc1_transformed_dfs s;
     fuel_df := fuel_df s;
     steam_df := steam_df s;
     calls := calls s |}.

Definition set_fuel_df (df : DataFrame) : Exec Session () :=
  λ s, (Return (),
        {| ferc1_dbf_raw_dfs := ferc1_dbf_raw_dfs s;
           ferc1_xbrl_raw_dfs := ferc1_xbrl_raw_dfs s;
           ferc1_transformed_dfs := ferc1_transformed_dfs s;
           fuel_df := Some df;
           steam_df := steam_df s;
           calls := calls s |}).

Definition set_steam_df (df : DataFrame) : Exec Session () :=
  λ s, (Return (),
        {| ferc1_dbf_raw_dfs := ferc1_dbf_raw_dfs s;
           ferc1_xbrl_raw_dfs := ferc1_xbrl_raw_dfs s;
           ferc1_transformed_dfs := ferc1_transformed_dfs s;
           fuel_df := fuel_df s;
           steam_df := Some df;
           calls := calls s |}).

Definition log (ev : Event) (s : Session) : Session :=
  {| ferc1_dbf_raw_dfs := ferc1_dbf_raw_dfs s;
     ferc1_xbrl_raw_dfs := ferc1_xbrl_raw_dfs s;
     ferc1_transformed_dfs := ferc1_transformed_dfs s;
     fuel_df := fuel_df s;
     steam_df := steam_df s;
     calls := calls s ++ [ev] |}.

(** A dictionary computation run on the object bound to
    [ferc1_xbrl_raw_dfs]. *)
Definition on_xbrl {A} (m : Exec (gmap string DataFrame) A) : Exec Session A :=
  λ s, let '(o, d) := m (ferc1_xbrl_raw_dfs s) in (o, set_ferc1_xbrl_raw_dfs d s).

(** The rename cell. *)
Definition rename_cell : Exec Session () := on_xbrl (reconcile rename_dict).

(** [execute] of the transformer classes: an external collaborator of
    the notebook, taken as a parameter.  It returns a table or raises. *)
Variable execute : Transformer → string → Kwargs → Outcome DataFrame.

(** [T(table_name=table).execute(...)] with keyword arguments [kw], as
    the session sees it. *)
Definition call (t : Transformer) (table_name : string) (kw : Kwargs) : Exec Session DataFrame :=
  λ s, let result := execute t table_name kw in
       (result, log (Completed t result) (log (Invoked t table_name kw) s)).

(** The three lookups every call of the transform cell makes:
    [ferc1_dbf_raw_dfs.get(table)],
    [ferc1_xbrl_raw_dfs.get(f"{table}_instant", None)] and
    [ferc1_xbrl_raw_dfs.get(f"{table}_duration", None)]. *)
Definition kwargs (s : Session) (table : string) (dep : option DataFrame) : Kwargs :=
  {| raw_dbf := get (ferc1_dbf_raw_dfs s) table;
     raw_xbrl_instant := get (ferc1_xbrl_raw_dfs s) (table +:+ "_instant");
     raw_xbrl_duration := get (ferc1_xbrl_raw_dfs s) (table +:+ "_duration");
     transformed_fuel := dep |}.

(** The transform cell: [fuel_df = FuelFerc1(...).execute(...)], then
    [steam_df = PlantsSteamFerc1(...).execute(..., transformed_fuel=fuel_df)]. *)
Definition transform_cell : Exec Session () :=
  let table := "fuel_ferc1" in
  df ←' (λ s, call FuelFerc1 table (kwargs s table None) s);
  set_fuel_df df ;;'
  let table := "plants_steam_ferc1" in
  df ←' (λ s, call PlantsSteamFerc1 table (kwargs s table (fuel_df s)) s);
  set_steam_df df.

(** ** The dispatcher of the specification *)

(** Modelled from the spec: the transform handlers [FuelFerc1.execute]
    and [PlantsSteamFerc1.execute] of [pudl.transform.ferc1] and the
    registry they are selected from are missing from the sources; only
    their two calls in the notebook are there.  Per section 4.2 a handler
    declares the dependencies it needs; the fuel handler has none and the
    plant handler needs [transformed_fuel].  The table a handler produces
    is business logic the specification leaves open: [produce]. *)
Definition declared_dependencies (t : Transformer) : list string :=
  match t with
  | FuelFerc1 => []
  | PlantsSteamFerc1 => ["transformed_fuel"]
  end.

(** Modelled from the spec: the fixed registry, by canonical table name,
    which is missing from the sources.  The specification does not say
    what a table name without a handler gives: [None]. *)
Definition registry (table_name : string) : option Transformer :=
  if decide (table_name = "fuel_ferc1") then Some FuelFerc1
  else if decide (table_name = "plants_steam_ferc1") then Some PlantsSteamFerc1
  else None.

Variable produce :
  Transformer → option DataFrame → option DataFrame → gmap string DataFrame → DataFrame.

(** The first declared dependency that was not supplied, if any. *)
Definition missing_dependency (t : Transformer) (dependency_results : gmap string DataFrame)
  : option string :=
  List.find (λ d, bool_decide (dependency_results !! d = None)) (declared_dependencies t).

(** Modelled from the spec: [dispatch(table_name, dependency_results)] of
    section 4.2, missing from the sources: look the handler up, fail with
    [MissingDependencyError] if a declared dependency was not supplied,
    otherwise invoke the handler and return its table. *)
Definition dispatch (table_name : string) (raw_instant raw_duration : option DataFrame)
    (dependency_results : gmap string DataFrame) : option (Outcome DataFrame) :=
  match registry table_name with
  | None => None
  | Some t =>
      match missing_dependency t dependency_results with
      | Some d => Some (Raise (MissingDependencyError d))
      | None => Some (Return (produce t raw_instant raw_duration dependency_results))
      end
  end.
End Session.

Arguments Kwargs : clear implicits.
Arguments Event : clear implicits.
Arguments Session : clear implicits.

(** * The deployment script docker/pudl_etl.sh

    The script runs external commands one after the other and reads
    their exit statuses.  A command line is the list of its words; the
    state of a run is the list of the command lines run so far, oldest
    first.  [tee], which only copies the output of [run_pudl_etl] beside
    it and whose status the script never reads, is not listed. *)

(** The environment variables the script expands (empty when unset). *)
Record Environ := {
  SLACK_TOKEN : string;
  GITHUB_SHA : string;
  GITHUB_REF : string;
  CONTAINER_PUDL_IN : string;
  CONTAINER_PUDL_OUT : string;
  PUDL_SETTINGS_YML : string }.

(** The double-quote character of the JSON payload. *)
Definition dquote : string := String (Ascii.ascii_of_nat 34) EmptyString.

Section Script.
(** The words an unquoted expansion [$VAR] is split into by the shell. *)
Variable fields : string → list string.
(** The exit status of an external command.  A run of the script never
    runs the same command line twice, so one status per command line
    describes any run. *)
Variable exit_status : list string → nat.
Variable env : Environ.

(** Running one command: it is recorded and its status returned.  The
    script has no [set -e]: a non-zero status stops nothing by itself. *)
Definition run (argv : list string) : Exec (list (list string)) nat :=
  λ h, (Return (exit_status argv), h ++ [argv]).

(** [a && b]: [b] runs only when [a] exited with status 0; the status
    is that of the last command run. *)
Definition and_then (a b : Exec (list (list string)) nat) : Exec (list (list string)) nat :=
  st ←' a; match st with 0 => b | S _ => exec_ret st end.

(** The [--data] argument of [send_slack_msg]: the text is pasted between
    quotes as it is. *)
Definition slack_payload (text : string) : string :=
  "{" +:+ dquote +:+ "channel" +:+ dquote +:+ ": " +:+ dquote +:+ "C03FHB9N0PQ" +:+ dquote
  +:+ ", " +:+ dquote +:+ "text" +:+ dquote +:+ ": " +:+ dquote +:+ text +:+ dquote +:+ "}".

Definition slack_cmd (text : string) : list string :=
  [ "curl"; "-X"; "POST"; "-H"; "Content-type: application/json";
    "-H"; "Authorization: Bearer " +:+ SLACK_TOKEN env;
    "https://slack.com/api/chat.postMessage"; "--data"; slack_payload text ].

Definition send_slack_msg (text : string) : Exec (list (list string)) nat :=
  run (slack_cmd text).

Definition started_text : string :=
  ":large_yellow_circle: Deployment started for " +:+ GITHUB_SHA env +:+ "-" +:+ GITHUB_REF env.

Definition gcloud_cmd : list string :=
  [ "gcloud"; "config"; "set"; "project"; "catalyst-cooperative-pudl" ].

Definition pudl_setup_cmd : list string :=
  [ "pudl_setup"; "--pudl_in" ] ++ fields (CONTAINER_PUDL_IN env)
  ++ [ "--pudl_out" ] ++ fields (CONTAINER_PUDL_OUT env).

Definition ferc1_to_sqlite_cmd : list string :=
  [ "ferc1_to_sqlite"; "--clobber"; "--gcs-cache-path"; "gs://zenodo-cache.catalyst.coop";
    "--bypass-local-cache" ] ++ fields (PUDL_SETTINGS_YML env).

Definition pudl_etl_cmd : list string :=
  [ "pudl_etl"; "--clobber"; "--gcs-cache-path"; "gs://zenodo-cache.catalyst.coop";
    "--bypass-local-cache" ] ++ fields (PUDL_SETTINGS_YML env).

Definition pytest_cmd : list string := [ "pytest"; "test/unit" ].

(** [run_pudl_etl]: the start message, the project setting, then the
    four stages chained with [&&].  Its status is that of the chain. *)
Definition run_pudl_etl : Exec (list (list string)) nat :=
  send_slack_msg started_text ;;'
  run gcloud_cmd ;;'
  and_then (and_then (and_then (run pudl_setup_cmd) (run ferc1_to_sqlite_cmd))
                     (run pudl_etl_cmd))
           (run pytest_cmd).

Definition gsutil_cmd : list string :=
  [ "gsutil"; "-m"; "cp"; "-r" ] ++ fields (CONTAINER_PUDL_OUT env)
  ++ [ "gs://pudl-etl-logs/" +:+ GITHUB_SHA env +:+ "-" +:+ GITHUB_REF env ].

Definition echo_cmd : list string := [ "echo"; "Shutting down VM." ].

(** [shutdown_vm]: copies the outputs and prints a line; the requests
    that would stop the machine are commented out in the script. *)
Definition shutdown_vm : Exec (list (list string)) nat :=
  run gsutil_cmd ;;' run echo_cmd.

(** The body of the script: [run_pudl_etl 2>&1 | tee $LOGFILE], the
    test of [PIPESTATUS[0]], which is the status of [run_pudl_etl], one
    of the two status messages, and [shutdown_vm]. *)
Definition pudl_etl_sh : Exec (list (list string)) nat :=
  st ←' run_pudl_etl;
  (match st with
   | 0 => send_slack_msg "success"
   | S _ => send_slack_msg "failure"
   end) ;;'
  shutdown_vm.

(** The stages of [run_pudl_etl], in order. *)
Definition stages : list (list string) :=
  [ pudl_setup_cmd; ferc1_to_sqlite_cmd; pudl_etl_cmd; pytest_cmd ].
End Script.

(** * Properties *)

(** ** Equations of the monad and of one rename *)

Section DictFacts.
Context {DataFrame : Type}.
Implicit Types (d : gmap string DataFrame) (items : list (string * string)).

Lemma rename_step_present pudl_name xbrl_name d df :
  d !! xbrl_name = Some df →
  rename_step pudl_name xbrl_name d = (Return (), <[pudl_name := df]> (delete xbrl_name d)).
Proof. intros Hd. unfold rename_step, exec_bind, pop, setitem. by rewrite Hd. Qed.

Lemma rename_step_absent pudl_name xbrl_name d :
  d !! xbrl_name = None →
  rename_step pudl_name xbrl_name d = (Raise (KeyError xbrl_name), d).
Proof. intros Hd. unfold rename_step, exec_bind, pop. by rewrite Hd. Qed.

Lemma reconcile_cons pudl_name xbrl_name items d :
  reconcile ((pudl_name, xbrl_name) :: items) d =
  match d !! xbrl_name with
  | Some df => reconcile items (<[pudl_name := df]> (delete xbrl_name d))
  | None => (Raise (KeyError xbrl_name), d)
  end.
Proof.
  cbn [reconcile]. unfold exec_bind at 1.
  destruct (d !! xbrl_name) as [df|] eqn:Hd.
  - by rewrite (rename_step_present _ _ _ df).
  - by rewrite rename_step_absent.
Qed.

(** Running the pairs of [items1] and then, if none raised, those of
    [items2]. *)
Lemma reconcile_app items1 items2 d :
  reconcile (items1 ++ items2) d =
  match reconcile items1 d with
  | (Return _, d1) => reconcile items2 d1
  | (Raise e, d1) => (Raise e, d1)
  end.
Proof.
  revert d. induction items1 as [|[p x] items1 IH]; intros d; [done|].
  rewrite <- app_comm_cons, !reconcile_cons.
  destruct (d !! x); [apply IH | done].
Qed.

(** Keys that no pair names keep their entry, whatever the outcome. *)
Lemma reconcile_frame items d k :
  k ∉ old_keys items ++ new_keys items →
  (reconcile items d).2 !! k = d !! k.
Proof.
  revert d. induction items as [|[p x] items IH]; intros d Hk; [done|].
  unfold old_keys, new_keys in *. cbn [fmap list_fmap fst snd] in Hk.
  rewrite reconcile_cons.
  apply not_elem_of_app in Hk as [Hx Hp].
  apply not_elem_of_cons in Hx as [Hkx Hx], Hp as [Hkp Hp].
  destruct (d !! x) as [df|] eqn:Hd; [|done].
  rewrite IH; [|by apply not_elem_of_app].
  by rewrite lookup_insert_ne, lookup_delete_ne.
Qed.
(** A run that returns has done exactly the moves of the specification,
    in declared order. *)
Lemma reconcile_moved_in_order items d d' :
  reconcile items d = (Return (), d') → moved_in_order items d = d'.
Proof.
  revert d. induction items as [|[p x] items IH]; intros d.
  - cbn. by intros [= <-].
  - rewrite reconcile_cons. unfold moved_in_order. cbn [foldl fst snd].
    unfold move_entry at 2. destruct (d !! x) as [df|]; [apply IH | done].
Qed.

Lemma non_overlapping_cons p x items :
  non_overlapping ((p, x) :: items) →
  p ≠ x ∧ (x ∉ old_keys items) ∧ (x ∉ new_keys items) ∧
  (p ∉ old_keys items) ∧ (p ∉ new_keys items) ∧ non_overlapping items.
Proof.
  unfold non_overlapping, old_keys, new_keys. cbn [fmap list_fmap fst snd].
  rewrite <- app_comm_cons. intros [Hx Hnd]%NoDup_cons.
  apply not_elem_of_app in Hx as [Hx1 Hx2].
  apply not_elem_of_cons in Hx2 as [Hxp Hx2].
  apply NoDup_app in Hnd as (Hold & Hdisj & [Hp Hnew]%NoDup_cons).
  repeat split; try done.
  - intros Hin. apply (Hdisj p Hin). left.
  - apply NoDup_app. repeat split; try done.
    intros k Hk Hk'. apply (Hdisj k Hk). by right.
Qed.

(** With every old key present and no key named twice, the run returns,
    each new key holds what its old key held, and each old key is gone. *)
Lemma reconcile_lookup items d :
  non_overlapping items →
  (∀ k, k ∈ old_keys items → is_Some (d !! k)) →
  ∃ d', reconcile items d = (Return (), d') ∧
        ∀ p x, (p, x) ∈ items → d' !! p = d !! x ∧ d' !! x = None.
Proof.
  revert d. induction items as [|[p x] items IH]; intros d Hno Hold.
  - exists d. split; [done|]. intros ?? []%elem_of_nil.
  - apply non_overlapping_cons in Hno as (Hpx & Hxo & Hxn & Hpo & Hpn & Hno).
    destruct (Hold x) as [df Hd]; [left|].
    rewrite reconcile_cons, Hd.
    set (d1 := <[p := df]> (delete x d)).
    assert (Hother : ∀ k, k ≠ p → k ≠ x → d1 !! k = d !! k).
    { intros k ??. unfold d1. by rewrite lookup_insert_ne, lookup_delete_ne. }
    destruct (IH d1 Hno) as (d' & Hrun & Hd').
    { intros k Hk. rewrite Hother; [apply Hold; by right | |]; by intros ->. }
    exists d'. split; [done|].
    assert (Hframe : ∀ k, k ∉ old_keys items → k ∉ new_keys items → d' !! k = d1 !! k).
    { intros k ??. replace d' with (reconcile items d1).2 by by rewrite Hrun.
      apply reconcile_frame. by apply not_elem_of_app. }
    intros p' x' [[= -> ->]|Hin]%elem_of_cons.
    + rewrite !Hframe by done. unfold d1.
      rewrite lookup_insert_eq, lookup_insert_ne, lookup_delete_eq by done. done.
    + destruct (Hd' _ _ Hin) as [-> ->]. split; [|done].
      apply Hother; intros ->; [apply Hpo | apply Hxo];
        by apply (list_elem_of_fmap_2 snd) in Hin.
Qed.
End DictFacts.

(** ** The reconciler *)

Section Reconciler.
Context {DataFrame : Type}.
Implicit Types (d : gmap string DataFrame) (items : list (string * string)).

(** C1, as the code has it: for a non-overlapping rename dictionary
    whose old keys are all in the set, the rename loop returns; it has
    applied the pairs in declared order, each one removing the entry at
    the old key and reinserting it at the new key; every new key then
    holds exactly the table its old key held before, every old key is
    absent, and every entry under a key that no pair names is kept as it
    was.  The keys of the set are the former ones with the old keys
    replaced by the new keys: they are exactly the new keys if and only
    if the set held no key besides the old keys and the new keys. *)
Theorem reconcile_renames items d :
  non_overlapping items →
  (∀ k, k ∈ old_keys items → is_Some (d !! k)) →
  ∃ d', reconcile items d = (Return (), d') ∧
        d' = moved_in_order items d ∧
        (∀ pudl_name xbrl_name, (pudl_name, xbrl_name) ∈ items →
           d' !! pudl_name = d !! xbrl_name ∧ is_Some (d' !! pudl_name)) ∧
        (∀ k, k ∈ old_keys items → d' !! k = None) ∧
        (∀ k, k ∉ old_keys items ++ new_keys items → d' !! k = d !! k) ∧
        dom d' = (dom d ∖ list_to_set (old_keys items)) ∪ list_to_set (new_keys items) ∧
        (dom d' = list_to_set (new_keys items)
         ↔ dom d ⊆ list_to_set (old_keys items) ∪ list_to_set (new_keys items)).
Proof.
  intros Hno Hold.
  destruct (reconcile_lookup items d Hno Hold) as (d' & Hrun & Hd').
  assert (Holdk : ∀ k, k ∈ old_keys items → d' !! k = None).
  { intros k ([p x] & -> & Hin)%list_elem_of_fmap_1. by apply (Hd' p x). }
  assert (Hframe : ∀ k, k ∉ old_keys items ++ new_keys items → d' !! k = d !! k).
  { intros k Hk. replace d' with (reconcile items d).2 by by rewrite Hrun.
    by apply reconcile_frame. }
  assert (Hdom : dom d' = (dom d ∖ list_to_set (old_keys items)) ∪ list_to_set (new_keys items)).
  { apply set_eq. intros k.
    rewrite elem_of_union, elem_of_difference, !elem_of_list_to_set, !elem_of_dom.
    destruct (decide (k ∈ new_keys items)) as [Hn|Hn].
    { apply list_elem_of_fmap_1 in Hn as Hn'. destruct Hn' as ([p x] & -> & Hin).
      destruct (Hd' p x Hin) as [Hp _]. cbn [fst]. rewrite Hp.
      split; [by right|]. intros _. apply Hold. by apply (list_elem_of_fmap_2 snd) in Hin. }
    destruct (decide (k ∈ old_keys items)) as [Ho|Ho].
    { rewrite (Holdk k Ho). split; [by intros [? [=]] | by intros [[_ ?]|?]]. }
    rewrite Hframe by by apply not_elem_of_app.
    split; [by left | by intros [[? _]|?]]. }
  exists d'. split_and!; [exact Hrun | | | exact Holdk | exact Hframe | exact Hdom |].
  - symmetry. by apply reconcile_moved_in_order.
  - intros p x Hin. destruct (Hd' p x Hin) as [Hp _]. split; [exact Hp|].
    rewrite Hp. apply Hold. by apply (list_elem_of_fmap_2 snd) in Hin.
  - rewrite Hdom. split.
    + intros Heq k Hk. apply elem_of_union.
      destruct (decide (k ∈ old_keys items)) as [Ho|Ho].
      * left. by apply elem_of_list_to_set.
      * right. rewrite <- Heq. apply elem_of_union. left.
        apply elem_of_difference. by rewrite elem_of_list_to_set.
    + intros Hsub. apply set_eq. intros k.
      rewrite elem_of_union, elem_of_difference. split; [|by right].
      intros [[Hk Ho]|Hn]; [|done].
      apply Hsub in Hk. apply elem_of_union in Hk as [Hk|Hk]; done.
Qed.

(** C6: the empty rename dictionary leaves the set as it is. *)
Theorem reconcile_empty d (s : Session DataFrame) :
  reconcile [] d = (Return (), d)
  ∧ on_xbrl (reconcile []) s = (Return (), s).
Proof. split; [reflexivity | by destruct s]. Qed.

(** C10: with every old key present, every new key absent and no key
    named twice, the set has as many entries after the rename as before. *)
Theorem reconcile_preserves_size items d :
  non_overlapping items →
  (∀ k, k ∈ old_keys items → is_Some (d !! k)) →
  (∀ k, k ∈ new_keys items → d !! k = None) →
  ∃ d', reconcile items d = (Return (), d') ∧ size d' = size d.
Proof.
  revert d. induction items as [|[p x] items IH]; intros d Hno Hold Hnew.
  - by exists d.
  - apply non_overlapping_cons in Hno as (Hpx & Hxo & Hxn & Hpo & Hpn & Hno).
    destruct (Hold x) as [df Hd]; [left|].
    assert (Hp : d !! p = None) by (apply Hnew; left).
    rewrite reconcile_cons, Hd.
    destruct (IH (<[p := df]> (delete x d)) Hno) as (d' & Hrun & Hsize).
    + intros k Hk. rewrite lookup_insert_ne, lookup_delete_ne by by intros ->.
      apply Hold. by right.
    + intros k Hk. rewrite lookup_insert_ne, lookup_delete_ne by by intros ->.
      apply Hnew. by right.
    + exists d'. split; [done|]. rewrite Hsize.
      rewrite map_size_insert_None by by rewrite lookup_delete_ne.
      rewrite map_size_delete_Some by done.
      assert (size d ≠ 0); [|lia].
      apply map_size_ne_0_lookup. by exists x.
Qed.

(** C2, as the code has it: when the pairs before a pair have run and
    that pair's old key is then absent, the loop raises [KeyError] for
    that key and stops; the set stays as the earlier pairs left it, their
    renames applied in declared order and not rolled back.  The set is
    the one passed in when the failing pair is the first. *)
Theorem reconcile_absent_old_key items1 pudl_name xbrl_name items2 d d1 :
  reconcile items1 d = (Return (), d1) →
  d1 !! xbrl_name = None →
  reconcile (items1 ++ (pudl_name, xbrl_name) :: items2) d
    = (Raise (KeyError xbrl_name), d1)
  ∧ d1 = moved_in_order items1 d
  ∧ (items1 = [] → d1 = d).
Proof.
  intros Hrun Habs. split_and!.
  - by rewrite reconcile_app, Hrun, reconcile_cons, Habs.
  - symmetry. by apply reconcile_moved_in_order.
  - intros ->. by injection Hrun.
Qed.


(** C5: the scenario.  The RenameMap renames the two short keys to the
    long ones; applied to the set holding [T1] and [T2] under the short
    keys, the loop returns and the set is exactly [T1] and [T2] under the
    long keys. *)
Theorem reconcile_scenario (T1 T2 : DataFrame) :
  reconcile
    (rename_map_items
       [ ("plants_steam_ferc1_duration",
          "steam_electric_generating_plant_statistics_large_plants_402_duration");
         ("fuel_ferc1_duration",
          "steam_electric_generating_plant_statistics_large_plants_fuel_statistics_402_duration") ])
    {[ "plants_steam_ferc1_duration" := T1; "fuel_ferc1_duration" := T2 ]}
  = (Return (),
     {[ "steam_electric_generating_plant_statistics_large_plants_402_duration" := T1;
        "steam_electric_generating_plant_statistics_large_plants_fuel_statistics_402_duration" := T2 ]}).
Proof. vm_compute. reflexivity. Qed.

(** C7: whatever the outcome of the rename loop run on
    [ferc1_xbrl_raw_dfs], every entry of that set under a key that no pair
    names is as before, and nothing else of the session has changed: not
    [ferc1_dbf_raw_dfs], not [ferc1_transformed_dfs], no result variable,
    and no transformer was called. *)
Theorem reconcile_frame_effect items (s : Session DataFrame) :
  let s' := (on_xbrl (reconcile items) s).2 in
  (∀ k, k ∉ old_keys items ++ new_keys items →
        ferc1_xbrl_raw_dfs s' !! k = ferc1_xbrl_raw_dfs s !! k)
  ∧ ferc1_dbf_raw_dfs s' = ferc1_dbf_raw_dfs s
  ∧ ferc1_transformed_dfs s' = ferc1_transformed_dfs s
  ∧ fuel_df s' = fuel_df s
  ∧ steam_df s' = steam_df s
  ∧ calls s' = calls s.
Proof.
  cbv zeta. unfold on_xbrl.
  destruct (reconcile items (ferc1_xbrl_raw_dfs s)) as [o d'] eqn:Hrun.
  cbn. split_and!; try reflexivity.
  intros k Hk. replace d' with (reconcile items (ferc1_xbrl_raw_dfs s)).2 by by rewrite Hrun.
  by apply reconcile_frame.
Qed.
End Reconciler.

(** *** The reconciler on concrete sets *)

(** C1 on the notebook's own rename dictionary and a set holding its
    three long-named tables. *)
Lemma reconcile_renames_witness :
  ∃ d' : gmap string string,
    reconcile rename_dict
      {[ "steam_electric_generating_plant_statistics_large_plants_402_duration" := "T1";
         "steam_electric_generating_plant_statistics_large_plants_402_instant" := "T2";
         "steam_electric_generating_plant_statistics_large_plants_fuel_statistics_402_duration" := "T3" ]}
    = (Return (), d')
    ∧ d' !! "plants_steam_ferc1_duration" = Some "T1"
    ∧ d' !! "steam_electric_generating_plant_statistics_large_plants_402_duration" = None.
Proof.
  set (d := ({[ "steam_electric_generating_plant_statistics_large_plants_402_duration" := "T1";
         "steam_electric_generating_plant_statistics_large_plants_402_instant" := "T2";
         "steam_electric_generating_plant_statistics_large_plants_fuel_statistics_402_duration" := "T3" ]}
    : gmap string string)).
  destruct (reconcile_renames rename_dict d) as (d' & Hrun & _ & Hnew & Hold & _ & _).
  - unfold non_overlapping. refine (bool_decide_unpack _ _). vm_compute. exact I.
  - apply Forall_forall. refine (bool_decide_unpack _ _). vm_compute. exact I.
  - exists d'. split_and!.
    + exact Hrun.
    + destruct (Hnew "plants_steam_ferc1_duration"
        "steam_electric_generating_plant_statistics_large_plants_402_duration") as [-> _];
        [left | reflexivity].
    + apply Hold. left.
Defined.

(** The claim C1 fails as it is written when the set holds one more
    table than the old keys: the rename dictionary is non-overlapping and
    its old keys are all there, the loop returns, and the table under
    ["other"] is still in the set, whose keys are therefore not exactly
    the new keys. *)
Lemma reconcile_keeps_unnamed_table :
  non_overlapping rename_dict
  ∧ (∀ k, k ∈ old_keys rename_dict →
       is_Some (({[ "steam_electric_generating_plant_statistics_large_plants_402_duration" := "T1";
                    "steam_electric_generating_plant_statistics_large_plants_402_instant" := "T2";
                    "steam_electric_generating_plant_statistics_large_plants_fuel_statistics_402_duration" := "T3";
                    "other" := "T4" ]} : gmap string string) !! k))
  ∧ reconcile rename_dict
      ({[ "steam_electric_generating_plant_statistics_large_plants_402_duration" := "T1";
          "steam_electric_generating_plant_statistics_large_plants_402_instant" := "T2";
          "steam_electric_generating_plant_statistics_large_plants_fuel_statistics_402_duration" := "T3";
          "other" := "T4" ]} : gmap string string)
    = (Return (),
       {[ "plants_steam_ferc1_duration" := "T1"; "plants_steam_ferc1_instant" := "T2";
          "fuel_ferc1_duration" := "T3"; "other" := "T4" ]})
  ∧ dom ({[ "plants_steam_ferc1_duration" := "T1"; "plants_steam_ferc1_instant" := "T2";
            "fuel_ferc1_duration" := "T3"; "other" := "T4" ]} : gmap string string)
    ≠ list_to_set (new_keys rename_dict).
Proof.
  split_and!.
  - unfold non_overlapping. refine (bool_decide_unpack _ _). vm_compute. exact I.
  - apply Forall_forall. refine (bool_decide_unpack _ _). vm_compute. exact I.
  - vm_compute. reflexivity.
  - intros Heq.
    assert (Hin : "other" ∈ (list_to_set (new_keys rename_dict) : gset string)).
    { rewrite <- Heq. apply elem_of_dom. vm_compute. by eexists. }
    apply elem_of_list_to_set in Hin.
    repeat (apply elem_of_cons in Hin as [Hin|Hin]; [discriminate Hin|]).
    by apply elem_of_nil in Hin.
Qed.

(** C10 on the same set: three entries before, three after. *)
Lemma reconcile_preserves_size_witness :
  ∃ d' : gmap string string,
    reconcile rename_dict
      {[ "steam_electric_generating_plant_statistics_large_plants_402_duration" := "T1";
         "steam_electric_generating_plant_statistics_large_plants_402_instant" := "T2";
         "steam_electric_generating_plant_statistics_large_plants_fuel_statistics_402_duration" := "T3" ]}
    = (Return (), d')
    ∧ size d' = 3.
Proof.
  set (d := ({[ "steam_electric_generating_plant_statistics_large_plants_402_duration" := "T1";
         "steam_electric_generating_plant_statistics_large_plants_402_instant" := "T2";
         "steam_electric_generating_plant_statistics_large_plants_fuel_statistics_402_duration" := "T3" ]}
    : gmap string string)).
  destruct (reconcile_preserves_size rename_dict d) as (d' & Hrun & Hsize).
  - unfold non_overlapping. refine (bool_decide_unpack _ _). vm_compute. exact I.
  - apply Forall_forall. refine (bool_decide_unpack _ _). vm_compute. exact I.
  - apply Forall_forall. refine (bool_decide_unpack _ _). vm_compute. exact I.
  - exists d'. split; [exact Hrun|]. rewrite Hsize. vm_compute. reflexivity.
Defined.

(** The claim C2 fails on the notebook's own rename dictionary when the
    set lacks the second table: the first rename has happened and stays
    visible after the [KeyError] of the second. *)
Lemma reconcile_not_atomic :
  reconcile rename_dict
    ({[ "steam_electric_generating_plant_statistics_large_plants_402_duration" := "T1" ]}
       : gmap string string)
  = (Raise (KeyError "steam_electric_generating_plant_statistics_large_plants_402_instant"),
     {[ "plants_steam_ferc1_duration" := "T1" ]})
  ∧ ({[ "plants_steam_ferc1_duration" := "T1" ]} : gmap string string)
    ≠ {[ "steam_electric_generating_plant_statistics_large_plants_402_duration" := "T1" ]}.
Proof.
  split; [vm_compute; reflexivity|].
  intros Heq. apply (f_equal (λ m, m !! "plants_steam_ferc1_duration")) in Heq.
  vm_compute in Heq. discriminate Heq.
Qed.

(** C2 as amended, on that input: [KeyError] for the second old key, the
    set left as the first rename made it. *)
Lemma reconcile_absent_old_key_witness :
  reconcile rename_dict
    ({[ "steam_electric_generating_plant_statistics_large_plants_402_duration" := "T1" ]}
       : gmap string string)
  = (Raise (KeyError "steam_electric_generating_plant_statistics_large_plants_402_instant"),
     {[ "plants_steam_ferc1_duration" := "T1" ]}).
Proof.
  apply (reconcile_absent_old_key
           [ ("plants_steam_ferc1_duration",
              "steam_electric_generating_plant_statistics_large_plants_402_duration") ]
           "plants_steam_ferc1_instant"
           "steam_electric_generating_plant_statistics_large_plants_402_instant"
           [ ("fuel_ferc1_duration",
              "steam_electric_generating_plant_statistics_large_plants_fuel_statistics_402_duration") ]).
  - vm_compute. reflexivity.
  - vm_compute. reflexivity.
Defined.




(** ** The transform cell *)

Section TransformCell.
Context {DataFrame : Type}.
Variable execute : Transformer → string → Kwargs DataFrame → Outcome DataFrame.
Implicit Types (s : Session DataFrame) (kw : Kwargs DataFrame).

(** What one run of the transform cell does, step by step: the fuel
    transformer is called; if it raises, the cell ends with its
    exception; if it returns [df], the plant transformer is called with
    [transformed_fuel = df], and its outcome ends the cell. *)
Lemma transform_cell_run s :
  let kw1 := kwargs s "fuel_ferc1" None in
  match execute FuelFerc1 "fuel_ferc1" kw1 with
  | Raise e =>
      (transform_cell execute s).1 = Raise e
      ∧ calls (transform_cell execute s).2
        = calls s ++ [Invoked FuelFerc1 "fuel_ferc1" kw1; Completed FuelFerc1 (Raise e)]
  | Return df =>
      let kw2 := kwargs s "plants_steam_ferc1" (Some df) in
      let r2 := execute PlantsSteamFerc1 "plants_steam_ferc1" kw2 in
      (transform_cell execute s).1
        = match r2 with Return _ => Return () | Raise e => Raise e end
      ∧ calls (transform_cell execute s).2
        = calls s ++ [Invoked FuelFerc1 "fuel_ferc1" kw1; Completed FuelFerc1 (Return df);
                      Invoked PlantsSteamFerc1 "plants_steam_ferc1" kw2;
                      Completed PlantsSteamFerc1 r2]
  end.
Proof.
  cbv zeta. unfold transform_cell, exec_bind, call, set_fuel_df, set_steam_df.
  destruct (execute FuelFerc1 "fuel_ferc1" (kwargs s "fuel_ferc1" None)) as [df|e] eqn:Hfuel.
  - cbn [fuel_df]. change (kwargs _ "plants_steam_ferc1" (Some df))
      with (kwargs s "plants_steam_ferc1" (Some df)).
    destruct (execute PlantsSteamFerc1 _ _) as [df2|e2]; cbn;
      by rewrite <- !(assoc_L (++)).
  - cbn. by rewrite <- !(assoc_L (++)).
Qed.

(** C8: every run of the transform cell starts by calling the fuel
    transformer.  When that call completes with a table, the plant
    transformer is called next, after the completion, and the table is
    the [transformed_fuel] it gets; the run adds exactly these calls to
    the log, in this order.  When the fuel transformer raises instead,
    the cell ends with its exception and the plant transformer is not
    called.  So whenever the plant transformer is called, the fuel
    transformer has completed before with the result passed to it. *)
Theorem fuel_completes_before_plants s :
  let kw1 := kwargs s "fuel_ferc1" None in
  ∃ evs,
    calls (transform_cell execute s).2 = calls s ++ evs
    ∧ match execute FuelFerc1 "fuel_ferc1" kw1 with
      | Return df =>
          let kw2 := kwargs s "plants_steam_ferc1" (Some df) in
          evs = [ Invoked FuelFerc1 "fuel_ferc1" kw1;
                  Completed FuelFerc1 (Return df);
                  Invoked PlantsSteamFerc1 "plants_steam_ferc1" kw2;
                  Completed PlantsSteamFerc1
                    (execute PlantsSteamFerc1 "plants_steam_ferc1" kw2) ]
          ∧ transformed_fuel kw2 = Some df
          ∧ fuel_df (transform_cell execute s).2 = Some df
      | Raise e =>
          evs = [ Invoked FuelFerc1 "fuel_ferc1" kw1; Completed FuelFerc1 (Raise e) ]
          ∧ (transform_cell execute s).1 = Raise e
      end
    ∧ (∃ kw, evs !! 0 = Some (Invoked FuelFerc1 "fuel_ferc1" kw))
    ∧ ∀ j table_name kw,
        evs !! j = Some (Invoked PlantsSteamFerc1 table_name kw) →
        ∃ i df, i < j
                ∧ evs !! i = Some (Completed FuelFerc1 (Return df))
                ∧ transformed_fuel kw = Some df.
Proof.
  cbv zeta.
  pose proof (transform_cell_run s) as Hrun. cbv zeta in Hrun.
  assert (Hfuel : ∀ df, execute FuelFerc1 "fuel_ferc1" (kwargs s "fuel_ferc1" None) = Return df →
                        fuel_df (transform_cell execute s).2 = Some df).
  { intros df Hdf. unfold transform_cell, exec_bind, call, set_fuel_df, set_steam_df.
    rewrite Hdf. cbn [fuel_df].
    by destruct (execute PlantsSteamFerc1 _ _). }
  destruct (execute FuelFerc1 "fuel_ferc1" (kwargs s "fuel_ferc1" None)) as [df|e].
  - destruct Hrun as [_ Hcalls]. eexists. split; [exact Hcalls|].
    split_and!; [reflexivity | reflexivity | by apply Hfuel | by eexists |].
    intros [|[|[|[|j]]]] table_name kw; cbn; intros [= <- <-].
    exists 1, df. split_and!; [lia | done | done].
  - destruct Hrun as [Hout Hcalls]. eexists. split; [exact Hcalls|].
    split_and!; [reflexivity | exact Hout | by eexists |].
    intros [|[|j]] table_name kw; cbn; intros [=].
Qed.

(** C9: a variant key that is not in [ferc1_xbrl_raw_dfs] gives [None] as
    that raw input; every call of a transformer in a run of the cell gets
    exactly the inputs so looked up; the fuel transformer is always
    called, and the plant transformer whenever the fuel one returned; and
    an exception that ends the cell is one a transformer raised, never
    one of a lookup. *)
Theorem raw_lookups_total s :
  (∀ table dep,
      (ferc1_xbrl_raw_dfs s !! (table +:+ "_instant") = None →
       raw_xbrl_instant (kwargs s table dep) = None)
      ∧ (ferc1_xbrl_raw_dfs s !! (table +:+ "_duration") = None →
         raw_xbrl_duration (kwargs s table dep) = None))
  ∧ ∃ evs,
      calls (transform_cell execute s).2 = calls s ++ evs
      ∧ (∀ t table_name kw, Invoked t table_name kw ∈ evs →
           ∃ dep, kw = kwargs s table_name dep)
      ∧ Invoked FuelFerc1 "fuel_ferc1" (kwargs s "fuel_ferc1" None) ∈ evs
      ∧ (∀ df, execute FuelFerc1 "fuel_ferc1" (kwargs s "fuel_ferc1" None) = Return df →
           Invoked PlantsSteamFerc1 "plants_steam_ferc1"
             (kwargs s "plants_steam_ferc1" (Some df)) ∈ evs)
      ∧ (∀ e, (transform_cell execute s).1 = Raise e →
           ∃ t, Completed t (Raise e) ∈ evs).
Proof.
  split; [by intros table dep; split; intros Habs|].
  pose proof (transform_cell_run s) as Hrun. cbv zeta in Hrun.
  destruct (execute FuelFerc1 "fuel_ferc1" (kwargs s "fuel_ferc1" None)) as [df|e].
  - destruct Hrun as [Hout Hcalls]. eexists. split; [exact Hcalls|]. split_and!.
    + intros t table_name kw Hin. repeat (apply elem_of_cons in Hin as [[=]|Hin]); subst.
      * by eexists.
      * by eexists.
      * by apply elem_of_nil in Hin.
    + left.
    + intros ? [= <-]. do 2 right. left.
    + intros e He. rewrite Hout in He.
      destruct (execute PlantsSteamFerc1 _ _) as [?|e'] eqn:Hsteam; [done|].
      injection He as ->. exists PlantsSteamFerc1. do 3 right. left.
  - destruct Hrun as [Hout Hcalls]. eexists. split; [exact Hcalls|]. split_and!.
    + intros t table_name kw Hin. repeat (apply elem_of_cons in Hin as [[=]|Hin]); subst.
      * by eexists.
      * by apply elem_of_nil in Hin.
    + left.
    + intros ? [=].
    + intros e' He. rewrite Hout in He. injection He as ->.
      exists FuelFerc1. right. left.
Qed.

(** The two cells together, on a session whose [ferc1_xbrl_raw_dfs] holds
    the three tables the notebook extracts: after the rename cell the
    first call of the transform cell finds the fuel table under
    ["fuel_ferc1_duration"] and nothing under ["fuel_ferc1_instant"]. *)
Remark rename_cell_then_lookups (T1 T2 T3 : DataFrame) dbf transformed :
  let s := {| ferc1_dbf_raw_dfs := dbf;
              ferc1_xbrl_raw_dfs :=
                {[ "steam_electric_generating_plant_statistics_large_plants_402_duration" := T1;
                   "steam_electric_generating_plant_statistics_large_plants_402_instant" := T2;
                   "steam_electric_generating_plant_statistics_large_plants_fuel_statistics_402_duration" := T3 ]};
              ferc1_transformed_dfs := transformed;
              fuel_df := None; steam_df := None; calls := [] |} in
  (rename_cell s).1 = Return ()
  ∧ ferc1_xbrl_raw_dfs (rename_cell s).2
    = {[ "plants_steam_ferc1_duration" := T1; "plants_steam_ferc1_instant" := T2;
         "fuel_ferc1_duration" := T3 ]}
  ∧ raw_xbrl_duration (kwargs (rename_cell s).2 "fuel_ferc1" None) = Some T3
  ∧ raw_xbrl_instant (kwargs (rename_cell s).2 "fuel_ferc1" None) = None
  ∧ raw_xbrl_duration (kwargs (rename_cell s).2 "plants_steam_ferc1" None) = Some T1
  ∧ raw_xbrl_instant (kwargs (rename_cell s).2 "plants_steam_ferc1" None) = Some T2.
Proof. cbv zeta. split_and!; vm_compute; reflexivity. Qed.
End TransformCell.

(** ** The dispatcher of the specification *)

Section Dispatcher.
Context {DataFrame : Type}.
Variable produce :
  Transformer → option DataFrame → option DataFrame → gmap string DataFrame → DataFrame.
Implicit Types (dependency_results : gmap string DataFrame).

(** A declared dependency that was not supplied is found missing. *)
Lemma missing_dependency_found t dependency_results dep :
  dep ∈ declared_dependencies t →
  dependency_results !! dep = None →
  ∃ dep', missing_dependency t dependency_results = Some dep'
          ∧ dep' ∈ declared_dependencies t
          ∧ dependency_results !! dep' = None.
Proof.
  intros Hin Habs. unfold missing_dependency.
  destruct (List.find _ (declared_dependencies t)) as [dep'|] eqn:Hfind.
  - apply find_some in Hfind as [Hin' Hdep']. exists dep'. split_and!; [done | |].
    + by apply list_elem_of_In.
    + by apply bool_decide_eq_true in Hdep'.
  - apply list_elem_of_In in Hin. apply (find_none _ _ Hfind) in Hin.
    by apply bool_decide_eq_false in Hin.
Qed.

(** C4: dispatching ["fuel_ferc1"] with both raw inputs and no dependency
    result returns the table of the fuel handler; dispatching
    ["plants_steam_ferc1"] without a [transformed_fuel] result fails with
    [MissingDependencyError]; and any dispatch whose handler declares a
    dependency that is not supplied fails with [MissingDependencyError]
    for a declared dependency that is not supplied. *)
Theorem dispatch_dependencies :
  (∀ raw_instant raw_duration : DataFrame,
      dispatch produce "fuel_ferc1" (Some raw_instant) (Some raw_duration) ∅
      = Some (Return (produce FuelFerc1 (Some raw_instant) (Some raw_duration) ∅)))
  ∧ (∀ raw_instant raw_duration dependency_results,
       dependency_results !! "transformed_fuel" = None →
       dispatch produce "plants_steam_ferc1" raw_instant raw_duration dependency_results
       = Some (Raise (MissingDependencyError "transformed_fuel")))
  ∧ (∀ table_name t raw_instant raw_duration dependency_results dep,
       registry table_name = Some t →
       dep ∈ declared_dependencies t →
       dependency_results !! dep = None →
       ∃ dep', dispatch produce table_name raw_instant raw_duration dependency_results
               = Some (Raise (MissingDependencyError dep'))
               ∧ dep' ∈ declared_dependencies t
               ∧ dependency_results !! dep' = None).
Proof.
  split_and!.
  - reflexivity.
  - intros raw_instant raw_duration dependency_results Habs.
    unfold dispatch. change (registry "plants_steam_ferc1") with (Some PlantsSteamFerc1).
    unfold missing_dependency. cbn [declared_dependencies List.find].
    by rewrite bool_decide_eq_true_2.
  - intros table_name t raw_instant raw_duration dependency_results dep Hreg Hin Habs.
    destruct (missing_dependency_found t dependency_results dep Hin Habs)
      as (dep' & Hmiss & Hin' & Habs').
    exists dep'. unfold dispatch. by rewrite Hreg, Hmiss.
Qed.
End Dispatcher.

(** ** More on the rename loop *)

Section RenameLoop.
Context {DataFrame : Type}.
Implicit Types (d : gmap string DataFrame) (items : list (string * string)).

(** Keys other than the two of a rename are where they were after it. *)
Lemma lookup_renamed_other pudl_name xbrl_name df d k :
  k ≠ pudl_name → k ≠ xbrl_name →
  <[pudl_name := df]> (delete xbrl_name d) !! k = d !! k.
Proof. intros ??. by rewrite lookup_insert_ne, lookup_delete_ne. Qed.

(** X2. For a non-overlapping dictionary the loop returns exactly when every
    old key is in the set it starts from. *)
Theorem reconcile_returns_iff items d :
  non_overlapping items →
  (∃ d', reconcile items d = (Return (), d'))
  ↔ (∀ k, k ∈ old_keys items → is_Some (d !! k)).
Proof.
  intros Hno. split.
  - revert d Hno. induction items as [|[p x] items IH]; intros d Hno [d' Hrun] k Hk.
    { by apply elem_of_nil in Hk. }
    apply non_overlapping_cons in Hno as (Hpx & Hxo & Hxn & Hpo & Hpn & Hno).
    rewrite reconcile_cons in Hrun.
    destruct (d !! x) as [df|] eqn:Hd; [|done].
    unfold old_keys in Hk. cbn [fmap list_fmap snd] in Hk.
    apply elem_of_cons in Hk as [->|Hk]; [by rewrite Hd|].
    rewrite <- (lookup_renamed_other p x df) by by intros ->.
    apply (IH _ Hno); [by exists d' | done].
  - intros Hold. destruct (reconcile_lookup items d Hno Hold) as (d' & Hrun & _).
    by exists d'.
Qed.

(** X3. For a non-overlapping dictionary whose old keys are all in the set,
    the order in which the pairs are declared does not matter. *)
Theorem reconcile_permutation items items' d :
  items ≡ₚ items' →
  non_overlapping items →
  (∀ k, k ∈ old_keys items → is_Some (d !! k)) →
  reconcile items' d = reconcile items d.
Proof.
  intros Hperm Hno Hold.
  assert (Hno' : non_overlapping items').
  { unfold non_overlapping, old_keys, new_keys in *. by rewrite <- Hperm. }
  assert (Hold' : ∀ k, k ∈ old_keys items' → is_Some (d !! k)).
  { intros k Hk. apply Hold. unfold old_keys in *. by rewrite Hperm. }
  destruct (reconcile_lookup items d Hno Hold) as (d1 & Hrun1 & Hd1).
  destruct (reconcile_lookup items' d Hno' Hold') as (d2 & Hrun2 & Hd2).
  rewrite Hrun1, Hrun2. f_equal. apply map_eq. intros k.
  destruct (decide (k ∈ new_keys items)) as [Hn|Hn].
  { apply list_elem_of_fmap_1 in Hn as ([p x] & -> & Hin). cbn [fst].
    destruct (Hd1 p x Hin) as [-> _].
    rewrite Hperm in Hin. by destruct (Hd2 p x Hin) as [-> _]. }
  destruct (decide (k ∈ old_keys items)) as [Ho|Ho].
  { apply list_elem_of_fmap_1 in Ho as ([p x] & -> & Hin). cbn [snd].
    destruct (Hd1 p x Hin) as [_ ->].
    rewrite Hperm in Hin. by destruct (Hd2 p x Hin) as [_ ->]. }
  replace d1 with (reconcile items d).2 by by rewrite Hrun1.
  replace d2 with (reconcile items' d).2 by by rewrite Hrun2.
  rewrite !reconcile_frame; [done | by apply not_elem_of_app |].
  unfold old_keys, new_keys in *. rewrite <- Hperm. by apply not_elem_of_app.
Qed.
(** X4. A rename with no collision is undone by the inverted dictionary:
    with every old key present, every new key absent and no key named
    twice, running the loop and then the loop of the inverted dictionary
    gives back the set the first loop started from. *)
Theorem reconcile_round_trip items d :
  non_overlapping items →
  (∀ k, k ∈ old_keys items → is_Some (d !! k)) →
  (∀ k, k ∈ new_keys items → d !! k = None) →
  ∃ d', reconcile items d = (Return (), d')
        ∧ reconcile (inverted items) d' = (Return (), d).
Proof.
  revert d. induction items as [|[p x] items IH]; intros d Hno Hold Hnew.
  - by exists d.
  - apply non_overlapping_cons in Hno as (Hpx & Hxo & Hxn & Hpo & Hpn & Hno).
    destruct (Hold x) as [df Hd]; [left|].
    assert (Hp : d !! p = None) by (apply Hnew; left).
    rewrite reconcile_cons, Hd.
    destruct (IH (<[p := df]> (delete x d)) Hno) as (d' & Hrun & Hback).
    + intros k Hk. rewrite lookup_renamed_other by by intros ->. apply Hold. by right.
    + intros k Hk. rewrite lookup_renamed_other by by intros ->. apply Hnew. by right.
    + exists d'. split; [done|].
      unfold inverted in *. rewrite fmap_cons, reverse_cons, reconcile_app, Hback.
      cbn [prod_swap fst snd]. rewrite reconcile_cons, lookup_insert_eq.
      rewrite delete_insert_eq. cbn [reconcile]. unfold exec_ret.
      f_equal. rewrite (delete_id _ p) by by rewrite lookup_delete_ne.
      rewrite insert_delete_eq. by apply insert_id.
Qed.

(** X5. The loop is not to be run twice: after a run that returned, of a
    non-overlapping dictionary with at least one pair, a second run on
    the renamed set raises [KeyError] for the first old key and leaves
    the renamed set as it is. *)
Theorem reconcile_rerun_raises pudl_name xbrl_name items d :
  non_overlapping ((pudl_name, xbrl_name) :: items) →
  (∀ k, k ∈ old_keys ((pudl_name, xbrl_name) :: items) → is_Some (d !! k)) →
  ∃ d', reconcile ((pudl_name, xbrl_name) :: items) d = (Return (), d')
        ∧ reconcile ((pudl_name, xbrl_name) :: items) d' = (Raise (KeyError xbrl_name), d').
Proof.
  intros Hno Hold.
  destruct (reconcile_lookup _ d Hno Hold) as (d' & Hrun & Hd').
  exists d'. split; [done|].
  destruct (Hd' pudl_name xbrl_name) as [_ Hgone]; [left|].
  by rewrite reconcile_cons, Hgone.
Qed.

(** X6. Whatever the dictionary and the outcome, the set never has more
    entries after the loop than before. *)
Theorem reconcile_size_le items d : size (reconcile items d).2 ≤ size d.
Proof.
  revert d. induction items as [|[p x] items IH]; intros d; [done|].
  rewrite reconcile_cons. destruct (d !! x) as [df|] eqn:Hd; [|done].
  etrans; [apply IH|].
  rewrite map_size_insert.
  assert (size (delete x d) = pred (size d)) as Hdel by by apply map_size_delete_Some.
  assert (size d ≠ 0) by (apply map_size_ne_0_lookup; by exists x).
  destruct (delete x d !! p); cbn; lia.
Qed.

(** X7. Whatever the dictionary and the outcome, every table in the set
    after the loop is a table that was in the set before. *)
Theorem reconcile_no_new_table items d k df :
  (reconcile items d).2 !! k = Some df → ∃ k0, d !! k0 = Some df.
Proof.
  revert d. induction items as [|[p x] items IH]; intros d; [by exists k|].
  rewrite reconcile_cons. destruct (d !! x) as [df0|] eqn:Hd; [|by exists k].
  intros (k1 & Hk1)%IH.
  destruct (decide (k1 = p)) as [->|Hne].
  - rewrite lookup_insert_eq in Hk1. injection Hk1 as ->. by exists x.
  - rewrite lookup_insert_ne in Hk1 by done.
    apply lookup_delete_Some in Hk1 as [_ Hk1]. by exists k1.
Qed.
End RenameLoop.

(** *** The rename loop on concrete sets *)

(** [reconcile_returns_iff] on the notebook's dictionary: a set without
    the instant table does not let the loop return. *)
Lemma reconcile_returns_iff_witness :
  ¬ ∃ d' : gmap string string,
      reconcile rename_dict
        {[ "steam_electric_generating_plant_statistics_large_plants_402_duration" := "T1" ]}
      = (Return (), d').
Proof.
  intros Hret.
  assert (Hno : non_overlapping rename_dict).
  { unfold non_overlapping. refine (bool_decide_unpack _ _). vm_compute. exact I. }
  pose proof (proj1 (reconcile_returns_iff rename_dict _ Hno) Hret) as Hpresent.
  destruct (Hpresent "steam_electric_generating_plant_statistics_large_plants_402_instant")
    as [df Hdf]; [right; left|].
  vm_compute in Hdf. discriminate Hdf.
Defined.

(** [reconcile_permutation] on the notebook's dictionary declared in the
    opposite order. *)
Lemma reconcile_permutation_witness :
  reconcile (reverse rename_dict)
    ({[ "steam_electric_generating_plant_statistics_large_plants_402_duration" := "T1";
        "steam_electric_generating_plant_statistics_large_plants_402_instant" := "T2";
        "steam_electric_generating_plant_statistics_large_plants_fuel_statistics_402_duration" := "T3" ]}
       : gmap string string)
  = reconcile rename_dict
      {[ "steam_electric_generating_plant_statistics_large_plants_402_duration" := "T1";
         "steam_electric_generating_plant_statistics_large_plants_402_instant" := "T2";
         "steam_electric_generating_plant_statistics_large_plants_fuel_statistics_402_duration" := "T3" ]}.
Proof.
  apply reconcile_permutation.
  - symmetry. apply reverse_Permutation.
  - unfold non_overlapping. refine (bool_decide_unpack _ _). vm_compute. exact I.
  - apply Forall_forall. refine (bool_decide_unpack _ _). vm_compute. exact I.
Defined.

(** [reconcile_round_trip] on the notebook's dictionary. *)
Lemma reconcile_round_trip_witness :
  ∃ d' : gmap string string,
    reconcile rename_dict
      {[ "steam_electric_generating_plant_statistics_large_plants_402_duration" := "T1";
         "steam_electric_generating_plant_statistics_large_plants_402_instant" := "T2";
         "steam_electric_generating_plant_statistics_large_plants_fuel_statistics_402_duration" := "T3" ]}
    = (Return (), d')
    ∧ reconcile (inverted rename_dict) d'
      = (Return (),
         {[ "steam_electric_generating_plant_statistics_large_plants_402_duration" := "T1";
            "steam_electric_generating_plant_statistics_large_plants_402_instant" := "T2";
            "steam_electric_generating_plant_statistics_large_plants_fuel_statistics_402_duration" := "T3" ]}).
Proof.
  apply reconcile_round_trip.
  - unfold non_overlapping. refine (bool_decide_unpack _ _). vm_compute. exact I.
  - apply Forall_forall. refine (bool_decide_unpack _ _). vm_compute. exact I.
  - apply Forall_forall. refine (bool_decide_unpack _ _). vm_compute. exact I.
Defined.

(** [reconcile_rerun_raises] on the notebook's dictionary. *)
Lemma reconcile_rerun_raises_witness :
  ∃ d' : gmap string string,
    reconcile rename_dict
      {[ "steam_electric_generating_plant_statistics_large_plants_402_duration" := "T1";
         "steam_electric_generating_plant_statistics_large_plants_402_instant" := "T2";
         "steam_electric_generating_plant_statistics_large_plants_fuel_statistics_402_duration" := "T3" ]}
    = (Return (), d')
    ∧ reconcile rename_dict d'
      = (Raise (KeyError "steam_electric_generating_plant_statistics_large_plants_402_duration"),
         d').
Proof.
  apply reconcile_rerun_raises.
  - unfold non_overlapping. refine (bool_decide_unpack _ _). vm_compute. exact I.
  - apply Forall_forall. refine (bool_decide_unpack _ _). vm_compute. exact I.
Defined.

(** [reconcile_no_new_table] on a rename that replaces an entry: the
    table left under the new key is the one that was under the old key. *)
Lemma reconcile_no_new_table_witness :
  ∃ k0, ({[ "steam_electric_generating_plant_statistics_large_plants_402_duration" := "T1";
            "plants_steam_ferc1_duration" := "T0" ]} : gmap string string) !! k0 = Some "T1".
Proof.
  apply (reconcile_no_new_table rename_dict _ "plants_steam_ferc1_duration").
  vm_compute. reflexivity.
Defined.

(** ** More on the two cells *)

Section Cells.
Context {DataFrame : Type}.
Variable execute : Transformer → string → Kwargs DataFrame → Outcome DataFrame.
Implicit Types (s : Session DataFrame).

(** X8. What a run of the transform cell leaves in the variables.  The three
    dictionaries are never written.  If the fuel transformer raises, the
    cell ends with its exception and [fuel_df] and [steam_df] keep what
    they held; if it returns, [fuel_df] is its table, and then [steam_df]
    is assigned only if the plant transformer returns too, keeping what
    it held when the plant transformer raises. *)
Theorem transform_cell_variables s :
  let r := transform_cell execute s in
  ferc1_dbf_raw_dfs r.2 = ferc1_dbf_raw_dfs s
  ∧ ferc1_xbrl_raw_dfs r.2 = ferc1_xbrl_raw_dfs s
  ∧ ferc1_transformed_dfs r.2 = ferc1_transformed_dfs s
  ∧ match execute FuelFerc1 "fuel_ferc1" (kwargs s "fuel_ferc1" None) with
    | Raise e => r.1 = Raise e ∧ fuel_df r.2 = fuel_df s ∧ steam_df r.2 = steam_df s
    | Return df =>
        fuel_df r.2 = Some df
        ∧ match execute PlantsSteamFerc1 "plants_steam_ferc1"
                  (kwargs s "plants_steam_ferc1" (Some df)) with
          | Raise e => r.1 = Raise e ∧ steam_df r.2 = steam_df s
          | Return df' => r.1 = Return () ∧ steam_df r.2 = Some df'
          end
    end.
Proof.
  cbv zeta. unfold transform_cell, exec_bind, call, set_fuel_df, set_steam_df.
  destruct (execute FuelFerc1 "fuel_ferc1" (kwargs s "fuel_ferc1" None)) as [df|e].
  - cbn [fuel_df]. change (kwargs _ "plants_steam_ferc1" (Some df))
      with (kwargs s "plants_steam_ferc1" (Some df)).
    by destruct (execute PlantsSteamFerc1 _ _) as [df'|e'].
  - done.
Qed.

(** X9. The settings cell, the rename cell and the lookups of the transform
    cell together: when the extraction has given exactly the tables the
    settings ask for, the rename cell returns, the set is then keyed by
    exactly the three short names, the fuel transformer gets the fuel
    statistics table as duration input and no instant input, and the
    plant transformer gets the two plant tables; the legacy inputs are
    looked up in the untouched [ferc1_dbf_raw_dfs]. *)
Theorem inputs_after_rename s :
  dom (ferc1_xbrl_raw_dfs s) = list_to_set xbrl_tables →
  ∃ s', rename_cell s = (Return (), s')
    ∧ dom (ferc1_xbrl_raw_dfs s') = list_to_set (new_keys rename_dict)
    ∧ (∀ dep,
         raw_xbrl_instant (kwargs s' "fuel_ferc1" dep) = None
         ∧ raw_xbrl_duration (kwargs s' "fuel_ferc1" dep)
           = ferc1_xbrl_raw_dfs s
               !! "steam_electric_generating_plant_statistics_large_plants_fuel_statistics_402_duration"
         ∧ is_Some (raw_xbrl_duration (kwargs s' "fuel_ferc1" dep))
         ∧ raw_dbf (kwargs s' "fuel_ferc1" dep) = ferc1_dbf_raw_dfs s !! "fuel_ferc1")
    ∧ (∀ dep,
         raw_xbrl_instant (kwargs s' "plants_steam_ferc1" dep)
         = ferc1_xbrl_raw_dfs s
             !! "steam_electric_generating_plant_statistics_large_plants_402_instant"
         ∧ is_Some (raw_xbrl_instant (kwargs s' "plants_steam_ferc1" dep))
         ∧ raw_xbrl_duration (kwargs s' "plants_steam_ferc1" dep)
           = ferc1_xbrl_raw_dfs s
               !! "steam_electric_generating_plant_statistics_large_plants_402_duration"
         ∧ is_Some (raw_xbrl_duration (kwargs s' "plants_steam_ferc1" dep))
         ∧ raw_dbf (kwargs s' "plants_steam_ferc1" dep)
           = ferc1_dbf_raw_dfs s !! "plants_steam_ferc1").
Proof.
  destruct s as [dbf d transformed fuel steam log0]. cbn [ferc1_xbrl_raw_dfs]. intros Hdom.
  assert (Hin : ∀ k, k ∈ xbrl_tables → is_Some (d !! k)).
  { intros k Hk. apply elem_of_dom. rewrite Hdom. by apply elem_of_list_to_set. }
  destruct (Hin "steam_electric_generating_plant_statistics_large_plants_fuel_statistics_402_duration")
    as [T3 H3]; [left|].
  destruct (Hin "steam_electric_generating_plant_statistics_large_plants_402_duration")
    as [T1 H1]; [right; left|].
  destruct (Hin "steam_electric_generating_plant_statistics_large_plants_402_instant")
    as [T2 H2]; [do 2 right; left|].
  assert (Hd : d = {[ "steam_electric_generating_plant_statistics_large_plants_402_duration" := T1;
                      "steam_electric_generating_plant_statistics_large_plants_402_instant" := T2;
                      "steam_electric_generating_plant_statistics_large_plants_fuel_statistics_402_duration" := T3 ]}).
  { apply map_eq. intros k.
    destruct (decide (k ∈ xbrl_tables)) as [Hk|Hk].
    - repeat (apply elem_of_cons in Hk as [->|Hk]);
        [rewrite H3 | rewrite H1 | rewrite H2 | by apply elem_of_nil in Hk];
        vm_compute; reflexivity.
    - assert (d !! k = None) as ->.
      { apply not_elem_of_dom. rewrite Hdom. by rewrite elem_of_list_to_set. }
      symmetry. unfold xbrl_tables in Hk.
      repeat (apply not_elem_of_cons in Hk as [? Hk]).
      by rewrite !lookup_insert_ne, lookup_singleton_ne. }
  subst d. eexists. split; [vm_compute; reflexivity|].
  split_and!; try (intros dep; split_and!); try (vm_compute; by eauto).
Qed.
End Cells.

(** [inputs_after_rename] on a session the extraction has filled. *)
Lemma inputs_after_rename_witness :
  ∃ s' : Session string,
    rename_cell
      {| ferc1_dbf_raw_dfs := {[ "fuel_ferc1" := "F"; "plants_steam_ferc1" := "P" ]};
         ferc1_xbrl_raw_dfs :=
           {[ "steam_electric_generating_plant_statistics_large_plants_402_duration" := "T1";
              "steam_electric_generating_plant_statistics_large_plants_402_instant" := "T2";
              "steam_electric_generating_plant_statistics_large_plants_fuel_statistics_402_duration" := "T3" ]};
         ferc1_transformed_dfs := ∅;
         fuel_df := None; steam_df := None; calls := [] |}
    = (Return (), s')
    ∧ raw_xbrl_instant (kwargs s' "fuel_ferc1" None) = None
    ∧ raw_xbrl_duration (kwargs s' "fuel_ferc1" None) = Some "T3".
Proof.
  edestruct (inputs_after_rename
    {| ferc1_dbf_raw_dfs := ({[ "fuel_ferc1" := "F"; "plants_steam_ferc1" := "P" ]} : gmap string string);
       ferc1_xbrl_raw_dfs :=
         {[ "steam_electric_generating_plant_statistics_large_plants_402_duration" := "T1";
            "steam_electric_generating_plant_statistics_large_plants_402_instant" := "T2";
            "steam_electric_generating_plant_statistics_large_plants_fuel_statistics_402_duration" := "T3" ]};
       ferc1_transformed_dfs := ∅;
       fuel_df := None; steam_df := None; calls := [] |})
    as (s' & Hrun & _ & Hfuel & _).
  - vm_compute. reflexivity.
  - exists s'. destruct (Hfuel None) as (Hi & Hd & _). split_and!; [exact Hrun | exact Hi |].
    rewrite Hd. vm_compute. reflexivity.
Defined.

(** ** The deployment script *)

Section ScriptFacts.
Variable fields : string → list string.
Variable exit_status : list string → nat.
Variable env : Environ.

Ltac run_script :=
  cbv [pudl_etl_sh run_pudl_etl and_then send_slack_msg run shutdown_vm exec_bind exec_ret].

(* two command lines that differ in a word *)
Ltac cmd_discr H :=
  cbv [slack_cmd gcloud_cmd pudl_setup_cmd ferc1_to_sqlite_cmd pudl_etl_cmd pytest_cmd
       gsutil_cmd echo_cmd started_text slack_payload dquote] in H;
  cbn in H; discriminate H.

Ltac cmd_in_inv H :=
  repeat (apply elem_of_cons in H as [H|H]; [try (exfalso; cmd_discr H)|]);
  try (by apply elem_of_nil in H).

Ltac cmd_in := repeat first [apply list_elem_of_here | apply list_elem_of_further].

(* the five ways the chain of stages can go *)
Ltac stage_cases :=
  destruct (exit_status (pudl_setup_cmd fields env)) as [|n1] eqn:H1;
  [destruct (exit_status (ferc1_to_sqlite_cmd fields env)) as [|n2] eqn:H2;
   [destruct (exit_status (pudl_etl_cmd fields env)) as [|n3] eqn:H3;
    [destruct (exit_status pytest_cmd) as [|n4] eqn:H4|]|]|];
  cbn [app fst snd].

(** No command line is run twice in a run, which is why one exit status
    per command line is enough to describe a run. *)
Lemma commands_run_once : NoDup (pudl_etl_sh fields exit_status env []).2.
Proof.
  run_script. stage_cases;
    repeat (apply NoDup_cons; split; [by intros Hin; cmd_in_inv Hin|]);
    apply NoDup_nil_2.
Qed.

(** X10. In a run of the script [pudl_setup] is always run, and each later
    stage is run exactly when every stage before it exited with status
    0; the statuses of the Slack and [gcloud] commands play no part. *)
Theorem stages_gated :
  let h := (pudl_etl_sh fields exit_status env []).2 in
  pudl_setup_cmd fields env ∈ h
  ∧ (ferc1_to_sqlite_cmd fields env ∈ h ↔ exit_status (pudl_setup_cmd fields env) = 0)
  ∧ (pudl_etl_cmd fields env ∈ h
     ↔ exit_status (pudl_setup_cmd fields env) = 0
       ∧ exit_status (ferc1_to_sqlite_cmd fields env) = 0)
  ∧ (pytest_cmd ∈ h
     ↔ exit_status (pudl_setup_cmd fields env) = 0
       ∧ exit_status (ferc1_to_sqlite_cmd fields env) = 0
       ∧ exit_status (pudl_etl_cmd fields env) = 0).
Proof.
  cbv zeta. run_script. stage_cases;
    (split_and!; [cmd_in | ..]); split;
    try (by intros; cmd_in); try (by intros Hin; cmd_in_inv Hin);
    try (by intros (? & ?)); try (by intros (? & ? & ?)).
Qed.

(** X11. The status message of a run is ["success"] exactly when the four
    stages all exited with status 0, and ["failure"] exactly when one of
    them did not. *)
Theorem status_message :
  let h := (pudl_etl_sh fields exit_status env []).2 in
  let all_passed :=
    exit_status (pudl_setup_cmd fields env) = 0
    ∧ exit_status (ferc1_to_sqlite_cmd fields env) = 0
    ∧ exit_status (pudl_etl_cmd fields env) = 0
    ∧ exit_status pytest_cmd = 0 in
  (slack_cmd env "success" ∈ h ↔ all_passed)
  ∧ (slack_cmd env "failure" ∈ h ↔ ¬ all_passed).
Proof.
  cbv zeta. run_script. stage_cases; split; split;
    try (by intros; cmd_in); try (by intros Hin; cmd_in_inv Hin);
    try (by intros (? & ? & ? & ?)); try (by intros Hnot; destruct Hnot);
    try (by intros _ (? & ? & ? & ?)).
Qed.

(** X12. Whatever the statuses, a run starts with the start message, the
    project setting and [pudl_setup], and ends with the copy of the
    outputs to the log bucket followed by the [echo]; the status of the
    script is that of the [echo], not that of the stages. *)
Theorem outputs_always_copied :
  ∃ middle,
    pudl_etl_sh fields exit_status env []
    = (Return (exit_status echo_cmd),
       slack_cmd env (started_text env) :: gcloud_cmd :: pudl_setup_cmd fields env
         :: middle ++ [gsutil_cmd fields env; echo_cmd]).
Proof.
  run_script. stage_cases.
  - by exists [ferc1_to_sqlite_cmd fields env; pudl_etl_cmd fields env; pytest_cmd;
               slack_cmd env "success"].
  - by exists [ferc1_to_sqlite_cmd fields env; pudl_etl_cmd fields env; pytest_cmd;
               slack_cmd env "failure"].
  - by exists [ferc1_to_sqlite_cmd fields env; pudl_etl_cmd fields env; slack_cmd env "failure"].
  - by exists [ferc1_to_sqlite_cmd fields env; slack_cmd env "failure"].
  - by exists [slack_cmd env "failure"].
Qed.
(** X13. A run posts exactly two Slack messages: the start message, and later
    one status message, ["success"] or ["failure"]. *)
Theorem two_slack_messages :
  ∃ text,
    filter (λ argv, argv !! 0 = Some "curl") (pudl_etl_sh fields exit_status env []).2
    = [slack_cmd env (started_text env); slack_cmd env text]
    ∧ (text = "success" ∨ text = "failure").
Proof.
  run_script. stage_cases;
    [exists "success" | exists "failure" ..]; (split; [vm_compute; reflexivity | auto]).
Qed.
End ScriptFacts.
